(** * Sign-up completion view and the FxDesktop V1 command sender

    A shallow embedding of two modules of the content server:

    - [app/scripts/views/complete_sign_up.js]: the view that completes an
      email verification and dispatches on the server's answer;
    - the [FxDesktopV1Sender] channel sender that posts a
      [FirefoxAccountsCommand] DOM event to the embedding browser.

    Promises are modelled as state-passing computations that settle
    either resolved or rejected; the view's collaborators that are not
    part of these two files (error tables, verification-reason mixin,
    user registry, broker) are the fields of the [Collaborators] class,
    and every call made on them is recorded in the view's [calls]. *)

From stdpp Require Import base strings gmap.

(** * JavaScript values and promises *)

Module JS.

(** The values that travel through attributes and query parameters:
    a string, or one of the two "missing" values. *)
Inductive value : Type :=
| undefined
| null
| str (s : string).

(** [!! v] *)
Definition truthy (v : value) : bool :=
  match v with
  | str s => negb (String.eqb s EmptyString)
  | undefined | null => false
  end.

(** [v || null] *)
Definition or_null (v : value) : value :=
  if truthy v then v else null.

(** [o.get(k)] on a bag of string attributes; a key that is not set
    reads as [undefined]. *)
Definition get (o : gmap string string) (k : string) : value :=
  match o !! k with
  | Some s => str s
  | None => undefined
  end.

(** How a promise settles. *)
Inductive settled (E A : Type) : Type :=
| resolved (a : A)
| rejected (e : E).
Arguments resolved {E A} a.
Arguments rejected {E A} e.

(** A promise over a mutable world [S]: running it changes the world
    and settles. *)
Definition promise (S E A : Type) : Type := S -> S * settled E A.

Definition resolve {S E A} (a : A) : promise S E A :=
  fun s => (s, resolved a).

(** [throw e] inside a handler. *)
Definition throw {S E A} (e : E) : promise S E A :=
  fun s => (s, rejected e).

(** [p.then(f)]: [f] runs only when [p] resolves; a rejection passes
    through untouched. *)
Definition then_ {S E A B} (p : promise S E A) (f : A -> promise S E B)
  : promise S E B :=
  fun s =>
    match p s with
    | (s', resolved a) => f a s'
    | (s', rejected e) => (s', rejected e)
    end.

(** [p.fail(h)]: [h] runs only when [p] rejects; what [h] returns
    resolves the result, what it throws rejects it. *)
Definition fail {S E A} (p : promise S E A) (h : E -> promise S E A)
  : promise S E A :=
  fun s =>
    match p s with
    | (s', resolved a) => (s', resolved a)
    | (s', rejected e) => h e s'
    end.

(** A synchronous statement that only changes the world. *)
Definition modify {S E} (f : S -> S) : promise S E unit :=
  fun s => (f s, resolved tt).

End JS.

Notation "p 'THEN' f" := (JS.then_ p f) (at level 61, left associativity).
Notation "p 'FAIL' h" := (JS.fail p h) (at level 61, left associativity).

(** * Verification info *)

Module VerificationInfo.

(** Modelled from the spec: [models/verification/sign-up] is not among
    the sources.  The verification info is derived from the URL query
    parameters (code, uid, type, reminder, service) and has the boolean
    validity states valid / expired / used / damaged.  The parameters
    are kept as the bag of attributes the link carried; the three marks
    are flags that start unset; the schema that the parameters are
    validated against is the argument [validate]. *)
Record t : Type := mk {
  attributes : gmap string string;
  _isExpired : bool;
  _isUsed : bool;
  _isDamaged : bool
}.

(** [new VerificationInfo(searchParams)] *)
Definition new (searchParams : gmap string string) : t :=
  {| attributes := searchParams;
     _isExpired := false; _isUsed := false; _isDamaged := false |}.

Definition get (v : t) (k : string) : JS.value := JS.get (attributes v) k.

Definition markExpired (v : t) : t :=
  {| attributes := attributes v;
     _isExpired := true; _isUsed := _isUsed v; _isDamaged := _isDamaged v |}.

Definition markUsed (v : t) : t :=
  {| attributes := attributes v;
     _isExpired := _isExpired v; _isUsed := true; _isDamaged := _isDamaged v |}.

Definition markDamaged (v : t) : t :=
  {| attributes := attributes v;
     _isExpired := _isExpired v; _isUsed := _isUsed v; _isDamaged := true |}.

Definition isExpired (v : t) : bool := _isExpired v.
Definition isUsed (v : t) : bool := _isUsed v.
Definition isDamaged (v : t) : bool := _isDamaged v.

(** A link is valid when it has not been marked damaged and every
    parameter passes the schema. *)
Definition isValid (validate : gmap string string -> bool) (v : t) : bool :=
  negb (_isDamaged v) && validate (attributes v).

End VerificationInfo.

(** * The view's collaborators *)

(** The options object handed to [user.completeAccountSignUp]. *)
Record Options : Type := {
  reminder : JS.value;
  secondaryEmailVerified : JS.value;
  serverVerificationStatus : JS.value;
  service : JS.value;
  type : JS.value
}.

(** What [complete_sign_up.js] requires from the rest of the application.
    None of it is among the sources, so it is taken as given: the two
    error libraries, the verification-reason mixin, the parameter schema
    of the verification info, the account and user models and the
    broker.  The remote and the broker answer as functions of what they
    are handed; a promise they return is given by how it settles. *)
Class Collaborators : Type := {
  Error : Type;
  Account : Type;
  User : Type;
  BrokerResult : Type;

  (** [lib/auth-errors] *)
  AuthErrors_is : Error -> string -> bool;
  AuthErrors_toError : string -> Error;
  (** [lib/marketing-email-errors] *)
  MarketingEmailErrors_created : Error -> bool;

  (** [views/mixins/verification-reason-mixin], as functions of the
      view model's [type] *)
  VerificationReason_isSignIn : JS.value -> bool;
  VerificationReason_isSignUp : JS.value -> bool;
  VerificationReason_keyOf : JS.value -> option string;

  (** the schema behind [verificationInfo.isValid()] *)
  VerificationInfo_validate : gmap string string -> bool;

  (** [account.get(name)], [account.populateFromStringifiedResumeToken] *)
  Account_get : Account -> string -> JS.value;
  Account_populateFromStringifiedResumeToken : JS.value -> Account -> Account;

  (** [user.getAccountByEmail], [user.completeAccountSignUp] (which may
      update the account it is given), [user.setAccount] *)
  User_getAccountByEmail : User -> JS.value -> Account;
  User_completeAccountSignUp :
    User -> Account -> JS.value -> Options -> User * Account * JS.settled Error unit;
  User_setAccount : User -> Account -> User * JS.settled Error unit;

  (** [this.invokeBrokerMethod(name, account)]; the name is [None] when
      the table has no entry for the key *)
  Broker_invoke : option string -> Account -> JS.settled Error BrokerResult
}.

(** * views/complete_sign_up.js *)

(** The static table [CompleteSignUpView.BROKER_METHODS]. *)
Definition BROKER_METHODS : gmap string string :=
  {[ "SECONDARY_EMAIL_VERIFIED" := "afterCompleteAddSecondaryEmail";
     "SIGN_IN" := "afterCompleteSignIn";
     "SIGN_UP" := "afterCompleteSignUp" ]}.

Section CompleteSignUpView.
Context `{C : Collaborators}.

(** The calls the view makes on its collaborators, in the order they
    are made, each with the arguments it was made with. *)
Inductive Call : Type :=
| LogError (err : Error)
| LogViewEvent (name : string)
| NotifierTrigger (name : string)
| PopulateFromStringifiedResumeToken (resume : JS.value)
| CompleteAccountSignUp (account : Account) (code : JS.value) (options : Options)
| SetAccount (account : Account)
| InvokeBrokerMethod (method : option string) (account : Account).

(** [this.model]: the two attributes the view reads and writes. *)
Record Model : Type := {
  model_error : option Error;
  model_type : JS.value
}.

(** The view object.  [_account] is the one account object that
    [getAccount()] hands out; every holder of that reference sees the
    state kept here. *)
Record View : Type := {
  _verificationInfo : VerificationInfo.t;
  _account : Account;
  _email : JS.value;
  model : Model;
  user : User;
  relier : gmap string string;
  searchParams : gmap string string;
  calls : list Call
}.

(** The object [context()] hands to the template. *)
Record Context : Type := {
  canResend : bool;
  error : option Error;
  isLinkDamaged : bool;
  isLinkExpired : bool;
  isLinkUsed : bool
}.

(** What the promise of [beforeRender] resolves with. *)
Inductive Rendered : Type :=
| ReturnedTrue
| ReturnedUndefined
| ReturnedByBroker (r : BrokerResult).

Definition P (A : Type) : Type := JS.promise View Error A.

(** ** Field updates *)

Definition set_verificationInfo (vi : VerificationInfo.t) (v : View) : View :=
  {| _verificationInfo := vi; _account := _account v; _email := _email v;
     model := model v; user := user v; relier := relier v;
     searchParams := searchParams v; calls := calls v |}.

Definition set_account (a : Account) (v : View) : View :=
  {| _verificationInfo := _verificationInfo v; _account := a; _email := _email v;
     model := model v; user := user v; relier := relier v;
     searchParams := searchParams v; calls := calls v |}.

Definition set_user (u : User) (v : View) : View :=
  {| _verificationInfo := _verificationInfo v; _account := _account v;
     _email := _email v; model := model v; user := u; relier := relier v;
     searchParams := searchParams v; calls := calls v |}.

(** [this.model.set('error', err)] *)
Definition set_model_error (err : Error) (v : View) : View :=
  {| _verificationInfo := _verificationInfo v; _account := _account v;
     _email := _email v;
     model := {| model_error := Some err; model_type := model_type (model v) |};
     user := user v; relier := relier v;
     searchParams := searchParams v; calls := calls v |}.

Definition record (c : Call) (v : View) : View :=
  {| _verificationInfo := _verificationInfo v; _account := _account v;
     _email := _email v; model := model v; user := user v; relier := relier v;
     searchParams := searchParams v; calls := calls v ++ [c] |}.

(** ** Calls on collaborators *)

Definition logError (err : Error) : P unit := JS.modify (record (LogError err)).
Definition logViewEvent (name : string) : P unit :=
  JS.modify (record (LogViewEvent name)).
Definition notifier_trigger (name : string) : P unit :=
  JS.modify (record (NotifierTrigger name)).

Definition getSearchParam (v : View) (name : string) : JS.value :=
  JS.get (searchParams v) name.

Definition isValid (v : View) : bool :=
  VerificationInfo.isValid VerificationInfo_validate (_verificationInfo v).

Definition isSignIn (v : View) : bool :=
  VerificationReason_isSignIn (model_type (model v)).
Definition isSignUp (v : View) : bool :=
  VerificationReason_isSignUp (model_type (model v)).
Definition keyOfVerificationReason (reason : JS.value) : option string :=
  VerificationReason_keyOf reason.

(** [account.populateFromStringifiedResumeToken(resume)] *)
Definition populateFromStringifiedResumeToken (resume : JS.value) : P unit :=
  JS.modify (fun v =>
    set_account (Account_populateFromStringifiedResumeToken resume (_account v))
      (record (PopulateFromStringifiedResumeToken resume) v)).

(** [this.user.completeAccountSignUp(account, code, options)] *)
Definition user_completeAccountSignUp (code : JS.value) (options : Options)
  : P unit :=
  fun v =>
    let v1 := record (CompleteAccountSignUp (_account v) code options) v in
    match User_completeAccountSignUp (user v) (_account v) code options with
    | (u, a, r) => (set_user u (set_account a v1), r)
    end.

(** [this.user.setAccount(account)] *)
Definition user_setAccount : P unit :=
  fun v =>
    let v1 := record (SetAccount (_account v)) v in
    match User_setAccount (user v) (_account v) with
    | (u, r) => (set_user u v1, r)
    end.

(** [this.invokeBrokerMethod(brokerMethod, account)] *)
Definition invokeBrokerMethod (brokerMethod : option string) : P BrokerResult :=
  fun v =>
    (record (InvokeBrokerMethod brokerMethod (_account v)) v,
     Broker_invoke brokerMethod (_account v)).

(** ** The methods of the view *)

Definition _logAndAbsorbMarketingClientErrors (err : Error) : P unit :=
  if MarketingEmailErrors_created err then
    logError err
  else
    JS.throw err.

Definition _getBrokerMethod (v : View) : option string :=
  match keyOfVerificationReason (model_type (model v)) with
  | Some methodKey => BROKER_METHODS !! methodKey
  | None => None
  end.

Definition _notifyBrokerAndComplete : P BrokerResult :=
  logViewEvent "verification.success" THEN fun _ =>
  notifier_trigger "verification.success" THEN fun _ =>
  user_setAccount THEN fun _ =>
  fun v => invokeBrokerMethod (_getBrokerMethod v) v.

Definition _handleVerificationErrors (err : Error) : P unit :=
  fun v =>
    let verificationInfo := _verificationInfo v in
    if AuthErrors_is err "UNKNOWN_ACCOUNT" then
      logError (AuthErrors_toError "UNKNOWN_ACCOUNT_VERIFICATION")
        (set_verificationInfo (VerificationInfo.markExpired verificationInfo) v)
    else if AuthErrors_is err "INVALID_VERIFICATION_CODE"
            || AuthErrors_is err "INVALID_PARAMETER" then
      if isSignIn v then
        logError (AuthErrors_toError "REUSED_SIGNIN_VERIFICATION_CODE")
          (set_verificationInfo (VerificationInfo.markUsed verificationInfo) v)
      else
        logError (AuthErrors_toError "DAMAGED_VERIFICATION_LINK")
          (set_verificationInfo (VerificationInfo.markDamaged verificationInfo) v)
    else
      logError err (set_model_error err v).

Definition _hasResendSessionToken (v : View) : bool :=
  JS.truthy (Account_get (User_getAccountByEmail (user v) (_email v)) "sessionToken").

Definition _canResend (v : View) : bool :=
  _hasResendSessionToken v && isSignUp v.

Definition context (v : View) : Context :=
  let verificationInfo := _verificationInfo v in
  {| canResend := _canResend v;
     error := model_error (model v);
     isLinkDamaged := negb (isValid v);
     isLinkExpired := VerificationInfo.isExpired verificationInfo;
     isLinkUsed := VerificationInfo.isUsed verificationInfo |}.

Definition beforeRender : P Rendered :=
  fun v =>
    let verificationInfo := _verificationInfo v in
    if negb (isValid v) then
      (logError (AuthErrors_toError "DAMAGED_VERIFICATION_LINK")
         THEN fun _ => JS.resolve ReturnedTrue) v
    else
      (populateFromStringifiedResumeToken (getSearchParam v "resume")
         THEN fun _ =>
       let code := VerificationInfo.get verificationInfo "code" in
       let options :=
         {| reminder := VerificationInfo.get verificationInfo "reminder";
            secondaryEmailVerified :=
              JS.or_null (getSearchParam v "secondary_email_verified");
            serverVerificationStatus :=
              JS.or_null (getSearchParam v "server_verification");
            service := JS.or_null (JS.get (relier v) "service");
            type := VerificationInfo.get verificationInfo "type" |} in
       user_completeAccountSignUp code options
         FAIL (fun err => _logAndAbsorbMarketingClientErrors err)
         THEN (fun _ => _notifyBrokerAndComplete
                          THEN fun r => JS.resolve (ReturnedByBroker r))
         FAIL (fun err => _handleVerificationErrors err
                          THEN fun _ => JS.resolve ReturnedUndefined)) v.

End CompleteSignUpView.

(** ** What [beforeRender] sends to the remote

    The arguments of the one call to [user.completeAccountSignUp], read
    off the view as [beforeRender] builds them, and the remote's answer
    to them. *)

Section Remote.
Context `{C : Collaborators}.

Definition resumeParam (v : View) : JS.value := getSearchParam v "resume".

Definition resumedAccount (v : View) : Account :=
  Account_populateFromStringifiedResumeToken (resumeParam v) (_account v).

Definition sentCode (v : View) : JS.value :=
  VerificationInfo.get (_verificationInfo v) "code".

Definition sentOptions (v : View) : Options :=
  {| reminder := VerificationInfo.get (_verificationInfo v) "reminder";
     secondaryEmailVerified :=
       JS.or_null (getSearchParam v "secondary_email_verified");
     serverVerificationStatus :=
       JS.or_null (getSearchParam v "server_verification");
     service := JS.or_null (JS.get (relier v) "service");
     type := VerificationInfo.get (_verificationInfo v) "type" |}.

Definition remoteAnswer (v : View) : User * Account * JS.settled Error unit :=
  User_completeAccountSignUp (user v) (resumedAccount v) (sentCode v) (sentOptions v).

(** The calls up to and including the remote one. *)
Definition callsUpToRemote (v : View) : list Call :=
  calls v ++ [PopulateFromStringifiedResumeToken (resumeParam v);
              CompleteAccountSignUp (resumedAccount v) (sentCode v) (sentOptions v)].

(** The calls of [_notifyBrokerAndComplete] on account [a] when
    [user.setAccount] resolves. *)
Definition callsOfCompletion (v : View) (a : Account) : list Call :=
  [LogViewEvent "verification.success";
   NotifierTrigger "verification.success";
   SetAccount a;
   InvokeBrokerMethod (_getBrokerMethod v) a].

(** The view as it stands once the calls [cs] have been made, the remote
    or the registry has left user [u] and account [a]; nothing else of
    the view has been touched. *)
Definition reached (v : View) (u : User) (a : Account) (cs : list Call) : View :=
  {| _verificationInfo := _verificationInfo v; _account := a; _email := _email v;
     model := model v; user := u; relier := relier v;
     searchParams := searchParams v; calls := cs |}.

(** The last handler of the chain in [beforeRender]. *)
Definition errorPath (err : Error) : P Rendered :=
  _handleVerificationErrors err THEN fun _ => JS.resolve ReturnedUndefined.

(** The closing sentence of the completion flow as the spec words it:
    whenever the remote operation fails, the view goes to the error
    handling and does nothing else. *)
Definition spec_failure_always_handled : Prop :=
  forall (v : View) (u : User) (a : Account) (err : Error),
    isValid v = true ->
    remoteAnswer v = (u, a, JS.rejected err) ->
    beforeRender v = errorPath err (reached v u a (callsUpToRemote v)).

(** Modelled from the spec: [lib/auth-errors] is not among the sources.
    The spec classifies the remote's errors into a fixed taxonomy whose
    classes are told apart by the decision table; an error that is the
    unknown-account error is neither of the invalid-code and
    invalid-parameter errors. *)
Definition taxonomy_distinguishes_unknown_account : Prop :=
  forall err : Error,
    AuthErrors_is err "UNKNOWN_ACCOUNT" = true ->
    AuthErrors_is err "INVALID_VERIFICATION_CODE" = false /\
    AuthErrors_is err "INVALID_PARAMETER" = false.

End Remote.

(** * The FxDesktop V1 sender *)

Module FxDesktopV1Sender.

Section Sender.
Variables Command Data MessageId : Type.

Record Detail : Type := {
  bubbles : bool;
  command : Command;
  data : Data
}.

(** [new win.CustomEvent(type, { detail })] *)
Record CustomEvent : Type := {
  type : string;
  detail : Detail
}.

(** A window, seen through the events dispatched on it so far,
    oldest first. *)
Record Window : Type := {
  dispatched : list CustomEvent
}.

Definition dispatchEvent (event : CustomEvent) (win : Window) : Window :=
  {| dispatched := dispatched win ++ [event] |}.

Record Options : Type := {
  window : option Window
}.

(** The sender object; [_window] is unset until [initialize]. *)
Record t : Type := {
  _window : option Window
}.

(** Reading a property of [undefined]. *)
Inductive Exception : Type := TypeError.

Definition FxDesktopV1Sender : t := {| _window := None |}.

Definition initialize (options : option Options) (this : t) : t :=
  let options := default {| window := None |} options in
  {| _window := window options |}.

(** messageId is ignored by FxDesktop *)
Definition createEvent (win : Window) (command : Command) (data : Data)
  : CustomEvent :=
  {| type := "FirefoxAccountsCommand";
     detail := {| bubbles := true; command := command; data := data |} |}.

(** The fourth argument of the call to [createEvent] has no
    parameter to land in. *)
Definition dispatchCommand (command : Command) (data : Data)
           (messageId : MessageId) : JS.promise t Exception unit :=
  fun this =>
    match _window this with
    | Some win =>
        let event := createEvent win command data in
        ({| _window := Some (dispatchEvent event win) |}, JS.resolved tt)
    | None => (this, JS.rejected TypeError)
    end.

Definition send (command : Command) (data : Data) (messageId : MessageId)
  : JS.promise t Exception unit :=
  JS.resolve tt THEN fun _ => dispatchCommand command data messageId.

Definition teardown (this : t) : t := this.

End Sender.

Arguments bubbles {Command Data} _.
Arguments command {Command Data} _.
Arguments data {Command Data} _.
Arguments type {Command Data} _.
Arguments detail {Command Data} _.
Arguments dispatched {Command Data} _.
Arguments window {Command Data} _.
Arguments _window {Command Data} _.
Arguments dispatchEvent {Command Data} event win.
Arguments initialize {Command Data} options this.
Arguments createEvent {Command Data} win command data.
Arguments dispatchCommand {Command Data MessageId} command data messageId.
Arguments send {Command Data MessageId} command data messageId.

End FxDesktopV1Sender.

(** * Scripted collaborators

    Modelled from the spec: the error libraries, the verification-reason
    mixin, the account and user models, the remote and the broker are not
    among the sources.  This instance stands in for them the way the
    view's tests stub them: an error carries the name of its class, an
    account is its bag of attributes, the user registry is keyed by email
    and the remote answers by a script keyed on the verification code. *)

Module Scripted.

Inductive error : Type :=
| AuthError (name : string)
| MarketingEmailError (name : string)
| ServiceError (message : string).

Definition error_is (err : error) (name : string) : bool :=
  match err with
  | AuthError n => String.eqb n name
  | MarketingEmailError _ | ServiceError _ => false
  end.

Definition created (err : error) : bool :=
  match err with
  | MarketingEmailError _ => true
  | AuthError _ | ServiceError _ => false
  end.

(** The verification reasons, key and value. *)
Definition VerificationReasons : list (string * string) :=
  [("SIGN_UP", "signup"); ("SIGN_IN", "login");
   ("SECONDARY_EMAIL_VERIFIED", "secondary_email_verified")].

Definition keyOf (reason : JS.value) : option string :=
  match reason with
  | JS.str r => fst <$> List.find (fun kv => String.eqb (snd kv) r) VerificationReasons
  | JS.undefined | JS.null => None
  end.

Definition hasKey (key : string) (reason : JS.value) : bool :=
  match keyOf reason with
  | Some k => String.eqb k key
  | None => false
  end.

(** A link needs its code and its uid. *)
Definition validate (attrs : gmap string string) : bool :=
  match attrs !! "code", attrs !! "uid" with
  | Some _, Some _ => true
  | _, _ => false
  end.

Definition populate (resume : JS.value) (a : gmap string string)
  : gmap string string :=
  match resume with
  | JS.str email => <["email" := email]> a
  | JS.undefined | JS.null => a
  end.

Definition getAccountByEmail (u : gmap string (gmap string string))
           (email : JS.value) : gmap string string :=
  match email with
  | JS.str e => default ∅ (u !! e)
  | JS.undefined | JS.null => ∅
  end.

(** The codes the remote refuses, and with what. *)
Definition refusals : list (string * error) :=
  [("gone", AuthError "UNKNOWN_ACCOUNT");
   ("stale", AuthError "INVALID_VERIFICATION_CODE");
   ("garbled", AuthError "INVALID_PARAMETER");
   ("basket", MarketingEmailError "NETWORK_FAILURE");
   ("down", ServiceError "service unavailable")].

Definition completeAccountSignUp (u : gmap string (gmap string string))
           (a : gmap string string) (code : JS.value) (options : Options)
  : gmap string (gmap string string) * gmap string string * JS.settled error unit :=
  match code with
  | JS.str c =>
      match List.find (fun kv => String.eqb (fst kv) c) refusals with
      | Some (_, err) => (u, a, JS.rejected err)
      | None => (u, <["verified" := "true"]> a, JS.resolved tt)
      end
  | JS.undefined | JS.null => (u, a, JS.rejected (AuthError "INVALID_PARAMETER"))
  end.

Definition setAccount (u : gmap string (gmap string string))
           (a : gmap string string)
  : gmap string (gmap string string) * JS.settled error unit :=
  match a !! "email" with
  | Some e => (<[e := a]> u, JS.resolved tt)
  | None => (u, JS.resolved tt)
  end.

Definition invoke (method : option string) (a : gmap string string)
  : JS.settled error string :=
  match method with
  | Some m => JS.resolved m
  | None => JS.rejected (ServiceError "no such broker method")
  end.

Definition collaborators : Collaborators :=
  {| Error := error;
     Account := gmap string string;
     User := gmap string (gmap string string);
     BrokerResult := string;
     AuthErrors_is := error_is;
     AuthErrors_toError := AuthError;
     MarketingEmailErrors_created := created;
     VerificationReason_isSignIn := hasKey "SIGN_IN";
     VerificationReason_isSignUp := hasKey "SIGN_UP";
     VerificationReason_keyOf := keyOf;
     VerificationInfo_validate := validate;
     Account_get := JS.get;
     Account_populateFromStringifiedResumeToken := populate;
     User_getAccountByEmail := getAccountByEmail;
     User_completeAccountSignUp := completeAccountSignUp;
     User_setAccount := setAccount;
     Broker_invoke := invoke |}.

#[local] Existing Instance collaborators.

(** A view opened on a link with the given code, for the given
    verification reason, in the browser that signed up [a@a.com]. *)
Definition view (code reason : string) : @View collaborators :=
  let params : gmap string string := {[ "code" := code; "uid" := "u1" ]} in
  let account : gmap string string :=
    {[ "uid" := "u1"; "email" := "a@a.com"; "sessionToken" := "t0ken" ]} in
  {| _verificationInfo := VerificationInfo.new params;
     _account := account;
     _email := JS.str "a@a.com";
     model := {| model_error := None; model_type := JS.str reason |};
     user := {[ "a@a.com" := account ]};
     relier := ∅;
     searchParams := params;
     calls := [] |}.

(** A view opened on a link that lost its code. *)
Definition damaged_view : @View collaborators :=
  let params : gmap string string := {[ "uid" := "u1" ]} in
  {| _verificationInfo := VerificationInfo.new params;
     _account := ∅;
     _email := JS.undefined;
     model := {| model_error := None; model_type := JS.str "signup" |};
     user := ∅;
     relier := ∅;
     searchParams := params;
     calls := [] |}.

End Scripted.

(** * The rest of the view: [initialize], [getAccount], [resend] *)

(** What [initialize] and [resend] require beyond [Collaborators]; none
    of it is among the sources: the registry's lookup by uid, the two
    account methods [initialize] calls, the resume-token mixin and
    [account.retrySignUp], given by how its promise settles. *)
Class ResendCollaborators `{C : Collaborators} : Type := {
  ResumeToken : Type;
  RetryResult : Type;

  (** [user.getAccountByUid(uid)], [account.isDefault()],
      [account.set('uid', uid)] *)
  User_getAccountByUid : User -> JS.value -> Account;
  Account_isDefault : Account -> bool;
  Account_set_uid : JS.value -> Account -> Account;

  (** [this.getStringifiedResumeToken(account)] of the resume-token
      mixin *)
  ResumeToken_stringified : View -> Account -> ResumeToken;

  (** [account.retrySignUp(relier, { resume })] *)
  Account_retrySignUp :
    Account -> gmap string string -> ResumeToken -> JS.settled Error RetryResult
}.

Section Resend.
Context `{R : ResendCollaborators}.

(** [initialize (options = {})], on the query parameters, the registry,
    the model and the relier the view is created with; [account] is
    [options.account]. *)
Definition initialize (account : option Account)
           (searchParams : gmap string string) (user : User) (model : Model)
           (relier : gmap string string) : View :=
  let verificationInfo := VerificationInfo.new searchParams in
  let uid := VerificationInfo.get verificationInfo "uid" in
  let account := default (User_getAccountByUid user uid) account in
  let account :=
    if Account_isDefault account then Account_set_uid uid account else account in
  {| _verificationInfo := verificationInfo;
     _account := account;
     _email := Account_get account "email";
     model := model; user := user; relier := relier;
     searchParams := searchParams; calls := [] |}.

Definition getAccount (v : View) : Account := _account v.

(** The calls [resend] makes. *)
Inductive ResendCall : Type :=
| RetrySignUp (account : Account) (relier : gmap string string) (resume : ResumeToken)
| Navigate (url : string) (error : Error).

(** What the promise of [resend] resolves with. *)
Inductive Resent : Type :=
| RetryResolved (r : RetryResult)
| NavigateReturned.

Definition account_retrySignUp (account : Account) (relier : gmap string string)
           (resume : ResumeToken) : JS.promise (list ResendCall) Error RetryResult :=
  fun cs =>
    (cs ++ [RetrySignUp account relier resume],
     Account_retrySignUp account relier resume).

(** [this.navigate(url, { error })] *)
Definition navigate (url : string) (error : Error)
  : JS.promise (list ResendCall) Error unit :=
  JS.modify (fun cs => cs ++ [Navigate url error]).

Definition getStringifiedResumeToken (v : View) (account : Account) : ResumeToken :=
  ResumeToken_stringified v account.

Definition resend (v : View) : JS.promise (list ResendCall) Error Resent :=
  let account := User_getAccountByEmail (user v) (_email v) in
  (account_retrySignUp account (relier v) (getStringifiedResumeToken v account)
     THEN fun r => JS.resolve (RetryResolved r))
    FAIL (fun err =>
            if AuthErrors_is err "INVALID_TOKEN" then
              navigate "signup" err THEN fun _ => JS.resolve NavigateReturned
            else
              (* unexpected error, rethrow for display. *)
              JS.throw err).

End Resend.

(** ** Reading the runs of [beforeRender] *)

Section Runs.
Context `{C : Collaborators}.

(** What follows the first handler of the chain in [beforeRender]. *)
Definition completion : P Rendered :=
  (_notifyBrokerAndComplete THEN fun r => JS.resolve (ReturnedByBroker r))
    FAIL (fun err => errorPath err).

(** The calls of [_notifyBrokerAndComplete] on account [a] when
    [user.setAccount] rejects. *)
Definition callsUpToSetAccount (a : Account) : list Call :=
  [LogViewEvent "verification.success";
   NotifierTrigger "verification.success";
   SetAccount a].

(** The view with the verification info and the model replaced and the
    rest as [reached] leaves it. *)
Definition settledAs (v : View) (vi : VerificationInfo.t) (m : Model)
           (u : User) (a : Account) (cs : list Call) : View :=
  {| _verificationInfo := vi; _account := a; _email := _email v;
     model := m; user := u; relier := relier v;
     searchParams := searchParams v; calls := cs |}.

(** [x || null] on a string that may be missing: a missing or empty
    string gives [null]. *)
Definition presentOrNull (x : option string) : JS.value :=
  match x with
  | Some s => if String.eqb s EmptyString then JS.null else JS.str s
  | None => JS.null
  end.

(** Calls that reach the remote or set the account up for it. *)
Definition reachesRemote (c : Call) : bool :=
  match c with
  | PopulateFromStringifiedResumeToken _ | CompleteAccountSignUp _ _ _ => true
  | LogError _ | LogViewEvent _ | NotifierTrigger _ | SetAccount _
  | InvokeBrokerMethod _ _ => false
  end.

(** How [_handleVerificationErrors] may leave the verification info and
    the model, and what it logs, when handed [err] on [vi] and [m]. *)
Inductive Handled (err : Error) (vi : VerificationInfo.t) (m : Model)
  : VerificationInfo.t -> Model -> Error -> Prop :=
| HandledExpired :
    Handled err vi m (VerificationInfo.markExpired vi) m
            (AuthErrors_toError "UNKNOWN_ACCOUNT_VERIFICATION")
| HandledUsed :
    Handled err vi m (VerificationInfo.markUsed vi) m
            (AuthErrors_toError "REUSED_SIGNIN_VERIFICATION_CODE")
| HandledDamaged :
    Handled err vi m (VerificationInfo.markDamaged vi) m
            (AuthErrors_toError "DAMAGED_VERIFICATION_LINK")
| HandledShown :
    Handled err vi m vi
            {| model_error := Some err; model_type := model_type m |} err.

End Runs.

(** ** A sequence of sends *)

Section SendAll.
Import FxDesktopV1Sender.
Context {Command Data MessageId : Type}.

(** One [send] after the other, each once the one before has settled
    resolved: [send(c1, d1, m1).then(() => send(c2, d2, m2))] and so on. *)
Fixpoint sendAll (messages : list (Command * Data * MessageId))
  : JS.promise (t Command Data) Exception unit :=
  match messages with
  | [] => JS.resolve tt
  | (command, data, messageId) :: rest =>
      send command data messageId THEN fun _ => sendAll rest
  end.

(** The event a message is sent as. *)
Definition eventOf (message : Command * Data * MessageId) : CustomEvent Command Data :=
  {| type := "FirefoxAccountsCommand";
     detail := {| bubbles := true;
                  command := message.1.1; data := message.1.2 |} |}.

End SendAll.

(** ** Scripted collaborators of [initialize] and [resend]

    Modelled from the spec: the registry's lookup by uid, the account
    methods, the resume-token mixin and [account.retrySignUp] are not
    among the sources.  The registry is searched for the uid, the
    default account is the one without a uid, the resume token is the
    account's email and the retry is refused for a session token that
    the remote has revoked. *)

Module ScriptedResend.

#[local] Existing Instance Scripted.collaborators.

Definition getAccountByUid (u : gmap string (gmap string string))
           (uid : JS.value) : gmap string string :=
  match uid with
  | JS.str i =>
      default ∅ (snd <$> List.find
                   (fun kv => bool_decide (snd kv !! "uid" = Some i))
                   (map_to_list u))
  | JS.undefined | JS.null => ∅
  end.

Definition isDefault (a : gmap string string) : bool :=
  match a !! "uid" with
  | Some _ => false
  | None => true
  end.

Definition set_uid (uid : JS.value) (a : gmap string string) : gmap string string :=
  match uid with
  | JS.str i => <["uid" := i]> a
  | JS.undefined | JS.null => delete "uid" a
  end.

Definition stringified (v : @View Scripted.collaborators)
           (a : gmap string string) : string :=
  default "no-email" (a !! "email").

Definition retrySignUp (a relier : gmap string string) (resume : string)
  : JS.settled Scripted.error string :=
  match a !! "sessionToken" with
  | Some "revoked" => JS.rejected (Scripted.AuthError "INVALID_TOKEN")
  | Some _ => JS.resolved resume
  | None => JS.rejected (Scripted.ServiceError "service unavailable")
  end.

Definition collaborators : @ResendCollaborators Scripted.collaborators :=
  {| ResumeToken := string;
     RetryResult := string;
     User_getAccountByUid := getAccountByUid;
     Account_isDefault := isDefault;
     Account_set_uid := set_uid;
     ResumeToken_stringified := stringified;
     Account_retrySignUp := retrySignUp |}.

(** The view of [Scripted.view] in a browser whose session token for
    [a@a.com] is the given one. *)
Definition view_with_token (token : string) : @View Scripted.collaborators :=
  let v := Scripted.view "c0de" "signup" in
  set_user {[ "a@a.com" := {[ "email" := "a@a.com"; "sessionToken" := token ]} ]} v.

(** The parameters of a link opened in a browser that does not know
    the account. *)
Definition second_browser_params : gmap string string :=
  {[ "code" := "c0de"; "uid" := "u1"; "resume" := "b@b.com" ]}.

Definition signup_model : @Model Scripted.collaborators :=
  {| model_error := None; model_type := JS.str "signup" |}.

End ScriptedResend.

(** ** A registry that cannot be written

    Modelled from the spec: the collaborators of [Scripted], with a
    [user.setAccount] that rejects, as when the browser's storage is
    full. *)

Module ScriptedQuota.

Definition quota : Scripted.error := Scripted.ServiceError "storage quota exceeded".

Definition setAccount (u : gmap string (gmap string string))
           (a : gmap string string)
  : gmap string (gmap string string) * JS.settled Scripted.error unit :=
  (u, JS.rejected quota).

Definition collaborators : Collaborators :=
  {| Error := Scripted.error;
     Account := gmap string string;
     User := gmap string (gmap string string);
     BrokerResult := string;
     AuthErrors_is := Scripted.error_is;
     AuthErrors_toError := Scripted.AuthError;
     MarketingEmailErrors_created := Scripted.created;
     VerificationReason_isSignIn := Scripted.hasKey "SIGN_IN";
     VerificationReason_isSignUp := Scripted.hasKey "SIGN_UP";
     VerificationReason_keyOf := Scripted.keyOf;
     VerificationInfo_validate := Scripted.validate;
     Account_get := JS.get;
     Account_populateFromStringifiedResumeToken := Scripted.populate;
     User_getAccountByEmail := Scripted.getAccountByEmail;
     User_completeAccountSignUp := Scripted.completeAccountSignUp;
     User_setAccount := setAccount;
     Broker_invoke := Scripted.invoke |}.

#[local] Existing Instance collaborators.

(** A sign-up link that verifies, opened in that browser. *)
Definition view : @View collaborators :=
  let params : gmap string string := {[ "code" := "c0de"; "uid" := "u1" ]} in
  let account : gmap string string := {[ "uid" := "u1"; "email" := "a@a.com" ]} in
  {| _verificationInfo := VerificationInfo.new params;
     _account := account;
     _email := JS.str "a@a.com";
     model := {| model_error := None; model_type := JS.str "signup" |};
     user := ∅;
     relier := ∅;
     searchParams := params;
     calls := [] |}.

End ScriptedQuota.

(** * Properties of the view *)

Section ViewProperties.
Context `{C : Collaborators}.

(** ** Bookkeeping *)

Lemma isValid_record (c : Call) (v : View) : isValid (record c v) = isValid v.
Proof. reflexivity. Qed.

Lemma isValid_markDamaged (v : View) :
  isValid (set_verificationInfo (VerificationInfo.markDamaged (_verificationInfo v)) v)
  = false.
Proof. reflexivity. Qed.

Lemma canResend_set_verificationInfo (vi : VerificationInfo.t) (v : View) :
  _canResend (set_verificationInfo vi v) = _canResend v.
Proof. reflexivity. Qed.

Lemma logError_run (err : Error) (v : View) :
  logError err v = (record (LogError err) v, JS.resolved tt).
Proof. reflexivity. Qed.

(** The three branches of [_handleVerificationErrors], each as one
    equation. *)

Lemma handle_unknown_account (err : Error) (v : View) :
  AuthErrors_is err "UNKNOWN_ACCOUNT" = true ->
  _handleVerificationErrors err v =
  (record (LogError (AuthErrors_toError "UNKNOWN_ACCOUNT_VERIFICATION"))
     (set_verificationInfo (VerificationInfo.markExpired (_verificationInfo v)) v),
   JS.resolved tt).
Proof. intros Hua. unfold _handleVerificationErrors. rewrite Hua. reflexivity. Qed.

Lemma handle_invalid (err : Error) (v : View) :
  AuthErrors_is err "UNKNOWN_ACCOUNT" = false ->
  AuthErrors_is err "INVALID_VERIFICATION_CODE" || AuthErrors_is err "INVALID_PARAMETER"
  = true ->
  _handleVerificationErrors err v =
  if isSignIn v then
    (record (LogError (AuthErrors_toError "REUSED_SIGNIN_VERIFICATION_CODE"))
       (set_verificationInfo (VerificationInfo.markUsed (_verificationInfo v)) v),
     JS.resolved tt)
  else
    (record (LogError (AuthErrors_toError "DAMAGED_VERIFICATION_LINK"))
       (set_verificationInfo (VerificationInfo.markDamaged (_verificationInfo v)) v),
     JS.resolved tt).
Proof.
  intros Hua Hinv. unfold _handleVerificationErrors.
  rewrite Hua, Hinv. destruct (isSignIn v); reflexivity.
Qed.

Lemma handle_other (err : Error) (v : View) :
  AuthErrors_is err "UNKNOWN_ACCOUNT" = false ->
  AuthErrors_is err "INVALID_VERIFICATION_CODE" = false ->
  AuthErrors_is err "INVALID_PARAMETER" = false ->
  _handleVerificationErrors err v =
  (record (LogError err) (set_model_error err v), JS.resolved tt).
Proof.
  intros Hua Hivc Hip. unfold _handleVerificationErrors.
  rewrite Hua, Hivc, Hip. reflexivity.
Qed.

(** Under the taxonomy, an invalid-code or invalid-parameter error does
    not take the first branch. *)
Lemma invalid_not_unknown_account (err : Error) :
  taxonomy_distinguishes_unknown_account ->
  AuthErrors_is err "INVALID_VERIFICATION_CODE" = true
  \/ AuthErrors_is err "INVALID_PARAMETER" = true ->
  AuthErrors_is err "UNKNOWN_ACCOUNT" = false
  /\ AuthErrors_is err "INVALID_VERIFICATION_CODE" || AuthErrors_is err "INVALID_PARAMETER"
     = true.
Proof.
  intros Htax Hinv. split.
  - destruct (AuthErrors_is err "UNKNOWN_ACCOUNT") eqn:Hua; [|reflexivity].
    destruct (Htax err Hua) as [Hivc Hip].
    destruct Hinv as [Hinv|Hinv]; congruence.
  - destruct Hinv as [-> | ->]; [reflexivity | apply orb_true_r].
Qed.

(** ** The start of [beforeRender] on a valid link *)

(** Up to the remote's answer: the account is populated from the resume
    token, then the remote is called once. *)
Lemma beforeRender_valid (v : View) :
  isValid v = true ->
  beforeRender v =
  (fun v1 =>
     match remoteAnswer v with
     | (u, a, r) => (reached v u a (callsUpToRemote v), r)
     end)
    FAIL (fun err => _logAndAbsorbMarketingClientErrors err)
    THEN (fun _ => _notifyBrokerAndComplete
                     THEN fun r => JS.resolve (ReturnedByBroker r))
    FAIL (fun err => errorPath err)
  $ v.
Proof.
  intros Hvalid. unfold beforeRender. rewrite Hvalid. cbn [negb].
  unfold JS.fail, JS.then_, populateFromStringifiedResumeToken, JS.modify,
    user_completeAccountSignUp, remoteAnswer, resumedAccount, sentCode,
    sentOptions, resumeParam, callsUpToRemote, reached.
  cbn. destruct (User_completeAccountSignUp _ _ _ _) as [[u a] r].
  unfold set_user, set_account, record. cbn.
  rewrite <- app_assoc. reflexivity.
Qed.

(** [_notifyBrokerAndComplete] from a state where the calls [cs] were
    made and [user.setAccount] resolves. *)
Lemma notifyBrokerAndComplete_run (v : View) (u u' : User) (a : Account)
      (cs : list Call) :
  User_setAccount u a = (u', JS.resolved tt) ->
  _notifyBrokerAndComplete (reached v u a cs) =
  (reached v u' a (cs ++ callsOfCompletion v a),
   Broker_invoke (_getBrokerMethod v) a).
Proof.
  intros Hset. unfold _notifyBrokerAndComplete, JS.then_, logViewEvent,
    notifier_trigger, JS.modify, user_setAccount, invokeBrokerMethod.
  cbn. rewrite Hset.
  unfold reached, callsOfCompletion, set_user, record. cbn.
  rewrite <- !app_assoc. reflexivity.
Qed.

End ViewProperties.

(** * The decision table of the completion flow *)

Section DecisionTable.
Context `{C : Collaborators}.

(** C1.  Whatever error [err] reaches [_handleVerificationErrors], if it
    is the UNKNOWN_ACCOUNT auth error then the verification info ends up
    marked expired (so the template is told the link expired), and the
    one error logged is UNKNOWN_ACCOUNT_VERIFICATION, "account not
    found": the original [err] is neither logged nor stored on the
    model. *)
Theorem unknown_account_marks_expired (err : Error) (v : View) :
  AuthErrors_is err "UNKNOWN_ACCOUNT" = true ->
  let v' := (_handleVerificationErrors err v).1 in
  (_handleVerificationErrors err v).2 = JS.resolved tt /\
  VerificationInfo.isExpired (_verificationInfo v') = true /\
  isLinkExpired (context v') = true /\
  calls v' = calls v ++ [LogError (AuthErrors_toError "UNKNOWN_ACCOUNT_VERIFICATION")] /\
  model v' = model v.
Proof.
  intros Hua. cbv zeta. rewrite (handle_unknown_account err v Hua).
  repeat split.
Qed.

(** C2.  For every error that is INVALID_VERIFICATION_CODE or
    INVALID_PARAMETER, when the flow is a sign-in
    [_handleVerificationErrors] marks the verification info used and the
    resulting error, the one logged, is REUSED_SIGNIN_VERIFICATION_CODE.
    The taxonomy of [lib/auth-errors] is what keeps such an error out of
    the UNKNOWN_ACCOUNT branch. *)
Theorem reused_signin_code_marks_used (err : Error) (v : View) :
  taxonomy_distinguishes_unknown_account ->
  AuthErrors_is err "INVALID_VERIFICATION_CODE" = true
  \/ AuthErrors_is err "INVALID_PARAMETER" = true ->
  isSignIn v = true ->
  let v' := (_handleVerificationErrors err v).1 in
  (_handleVerificationErrors err v).2 = JS.resolved tt /\
  VerificationInfo.isUsed (_verificationInfo v') = true /\
  isLinkUsed (context v') = true /\
  calls v' =
    calls v ++ [LogError (AuthErrors_toError "REUSED_SIGNIN_VERIFICATION_CODE")] /\
  model v' = model v.
Proof.
  intros Htax Hinv Hsignin. cbv zeta.
  destruct (invalid_not_unknown_account err Htax Hinv) as [Hua Hor].
  rewrite (handle_invalid err v Hua Hor), Hsignin.
  repeat split.
Qed.

(** C3.  For every error that is INVALID_VERIFICATION_CODE or
    INVALID_PARAMETER, when the flow is not a sign-in
    [_handleVerificationErrors] marks the verification info damaged, so
    that [isValid] is false and the template is told the link is
    damaged, and the resulting error, the one logged, is
    DAMAGED_VERIFICATION_LINK. *)
Theorem invalid_link_marks_damaged (err : Error) (v : View) :
  taxonomy_distinguishes_unknown_account ->
  AuthErrors_is err "INVALID_VERIFICATION_CODE" = true
  \/ AuthErrors_is err "INVALID_PARAMETER" = true ->
  isSignIn v = false ->
  let v' := (_handleVerificationErrors err v).1 in
  (_handleVerificationErrors err v).2 = JS.resolved tt /\
  VerificationInfo.isDamaged (_verificationInfo v') = true /\
  isValid v' = false /\
  isLinkDamaged (context v') = true /\
  calls v' = calls v ++ [LogError (AuthErrors_toError "DAMAGED_VERIFICATION_LINK")] /\
  model v' = model v.
Proof.
  intros Htax Hinv Hsignin. cbv zeta.
  destruct (invalid_not_unknown_account err Htax Hinv) as [Hua Hor].
  rewrite (handle_invalid err v Hua Hor), Hsignin. cbn [fst snd].
  split; [reflexivity|]. split; [reflexivity|].
  split; [rewrite isValid_record; apply isValid_markDamaged|].
  split; [|split; reflexivity].
  unfold context. cbn [isLinkDamaged].
  rewrite isValid_record, isValid_markDamaged. reflexivity.
Qed.

(** C5.  For every error that is none of UNKNOWN_ACCOUNT,
    INVALID_VERIFICATION_CODE and INVALID_PARAMETER,
    [_handleVerificationErrors] stores [err] itself as the model's
    [error], which is what the template is given to display, logs it,
    and leaves the verification info, its expired, used and damaged
    states included, as it was. *)
Theorem other_errors_shown_as_is (err : Error) (v : View) :
  AuthErrors_is err "UNKNOWN_ACCOUNT" = false ->
  AuthErrors_is err "INVALID_VERIFICATION_CODE" = false ->
  AuthErrors_is err "INVALID_PARAMETER" = false ->
  let v' := (_handleVerificationErrors err v).1 in
  (_handleVerificationErrors err v).2 = JS.resolved tt /\
  model_error (model v') = Some err /\
  error (context v') = Some err /\
  _verificationInfo v' = _verificationInfo v /\
  isLinkDamaged (context v') = isLinkDamaged (context v) /\
  isLinkExpired (context v') = isLinkExpired (context v) /\
  isLinkUsed (context v') = isLinkUsed (context v) /\
  calls v' = calls v ++ [LogError err].
Proof.
  intros Hua Hivc Hip. cbv zeta.
  rewrite (handle_other err v Hua Hivc Hip).
  repeat split.
Qed.

(** C4.  An error of the complete-sign-up call that was created by the
    marketing-email client is logged by
    [_logAndAbsorbMarketingClientErrors] and not rethrown; completion
    then proceeds as after a success: with the registry and the broker
    answering, [beforeRender] makes the calls of the completion, the
    broker's among them, after the one [logError], and touches neither
    the model's error nor the verification info.  Any other error is
    rethrown unchanged, with nothing logged. *)
Theorem marketing_errors_absorbed (err : Error) :
  (MarketingEmailErrors_created err = true ->
   forall v : View,
     _logAndAbsorbMarketingClientErrors err v
     = (record (LogError err) v, JS.resolved tt)) /\
  (MarketingEmailErrors_created err = false ->
   forall v : View,
     _logAndAbsorbMarketingClientErrors err v = (v, JS.rejected err)) /\
  (MarketingEmailErrors_created err = true ->
   forall (v : View) (u u' : User) (a : Account) (r : BrokerResult),
     isValid v = true ->
     remoteAnswer v = (u, a, JS.rejected err) ->
     User_setAccount u a = (u', JS.resolved tt) ->
     Broker_invoke (_getBrokerMethod v) a = JS.resolved r ->
     beforeRender v =
     (reached v u' a (callsUpToRemote v ++ [LogError err] ++ callsOfCompletion v a),
      JS.resolved (ReturnedByBroker r)) /\
     model (beforeRender v).1 = model v /\
     _verificationInfo (beforeRender v).1 = _verificationInfo v).
Proof.
  split; [|split].
  - intros Hm v. unfold _logAndAbsorbMarketingClientErrors. rewrite Hm. reflexivity.
  - intros Hm v. unfold _logAndAbsorbMarketingClientErrors. rewrite Hm. reflexivity.
  - intros Hm v u u' a r Hvalid Hremote Hset Hbroker.
    assert (beforeRender v =
            (reached v u' a
               (callsUpToRemote v ++ [LogError err] ++ callsOfCompletion v a),
             JS.resolved (ReturnedByBroker r))) as Heq.
    { rewrite (beforeRender_valid v Hvalid). simpl. rewrite Hremote.
      unfold JS.fail at 2. unfold JS.then_ at 1. unfold JS.fail at 1.
      unfold _logAndAbsorbMarketingClientErrors. rewrite Hm.
      rewrite logError_run.
      change (record (LogError err) (reached v u a (callsUpToRemote v)))
        with (reached v u a (callsUpToRemote v ++ [LogError err])).
      unfold JS.then_ at 1.
      rewrite (notifyBrokerAndComplete_run v u u' a _ Hset), Hbroker.
      unfold JS.resolve. rewrite <- app_assoc. reflexivity. }
    rewrite Heq. repeat split.
Qed.

End DecisionTable.

(** * Rendering and the completion flow *)

Section Flow.
Context `{C : Collaborators}.

(** C6.  [canResend] of the rendering context is true exactly when the
    account registered for the cached email holds a session token and
    the verification reason is sign-up.  The other flags of the context
    are the validity states of the verification info: damaged when it is
    not valid, expired, used.  Two views that agree on those states, on
    [_canResend] and on the model's error give the template the same
    context; the validity states themselves have no part in
    [_canResend]. *)
Theorem canResend_and_validity_states (v : View) :
  (canResend (context v) = true <->
   JS.truthy (Account_get (User_getAccountByEmail (user v) (_email v)) "sessionToken")
   = true
   /\ isSignUp v = true) /\
  canResend (context v) = _canResend v /\
  isLinkDamaged (context v) = negb (isValid v) /\
  isLinkExpired (context v) = VerificationInfo.isExpired (_verificationInfo v) /\
  isLinkUsed (context v) = VerificationInfo.isUsed (_verificationInfo v) /\
  (forall w : View,
     isValid w = isValid v ->
     VerificationInfo.isExpired (_verificationInfo w)
     = VerificationInfo.isExpired (_verificationInfo v) ->
     VerificationInfo.isUsed (_verificationInfo w)
     = VerificationInfo.isUsed (_verificationInfo v) ->
     _canResend w = _canResend v ->
     model_error (model w) = model_error (model v) ->
     context w = context v) /\
  (forall vi : VerificationInfo.t,
     _canResend (set_verificationInfo vi v) = _canResend v).
Proof.
  split; [|split; [|split; [|split; [|split; [|split]]]]].
  - change (canResend (context v)) with (_hasResendSessionToken v && isSignUp v).
    unfold _hasResendSessionToken. apply andb_true_iff.
  - reflexivity.
  - reflexivity.
  - reflexivity.
  - reflexivity.
  - intros w Hvalid Hexp Hused Hresend Herr. unfold context.
    rewrite Hvalid, Hexp, Hused, Hresend, Herr. reflexivity.
  - intros vi. apply canResend_set_verificationInfo.
Qed.

(** C7, as the code has it.  On a valid link, when the remote
    complete-sign-up operation resolves, the view logs and triggers
    'verification.success', hands the account the remote left to
    [user.setAccount] and, once that resolves, invokes one broker
    method, the entry of [BROKER_METHODS] under the key of the
    verification reason: afterCompleteSignUp for SIGN_UP,
    afterCompleteSignIn for SIGN_IN, afterCompleteAddSecondaryEmail for
    SECONDARY_EMAIL_VERIFIED.  When the remote rejects with an error that
    was not created by the marketing-email client, none of this happens
    and the error goes to [_handleVerificationErrors]. *)
Theorem completion_notifies_broker (v : View) :
  isValid v = true ->
  (forall (u u' : User) (a : Account),
     remoteAnswer v = (u, a, JS.resolved tt) ->
     User_setAccount u a = (u', JS.resolved tt) ->
     beforeRender v =
     let completed := reached v u' a (callsUpToRemote v ++ callsOfCompletion v a) in
     match Broker_invoke (_getBrokerMethod v) a with
     | JS.resolved r => (completed, JS.resolved (ReturnedByBroker r))
     | JS.rejected e => errorPath e completed
     end) /\
  (forall key : string,
     keyOfVerificationReason (model_type (model v)) = Some key ->
     _getBrokerMethod v = BROKER_METHODS !! key) /\
  BROKER_METHODS !! "SIGN_UP" = Some "afterCompleteSignUp" /\
  BROKER_METHODS !! "SIGN_IN" = Some "afterCompleteSignIn" /\
  BROKER_METHODS !! "SECONDARY_EMAIL_VERIFIED" = Some "afterCompleteAddSecondaryEmail" /\
  (forall (u : User) (a : Account) (err : Error),
     remoteAnswer v = (u, a, JS.rejected err) ->
     MarketingEmailErrors_created err = false ->
     beforeRender v = errorPath err (reached v u a (callsUpToRemote v))).
Proof.
  intros Hvalid. repeat split.
  - intros u u' a Hremote Hset.
    rewrite (beforeRender_valid v Hvalid). simpl. rewrite Hremote.
    unfold JS.fail at 2. unfold JS.then_ at 1. unfold JS.fail at 1.
    unfold JS.then_ at 1.
    rewrite (notifyBrokerAndComplete_run v u u' a _ Hset).
    destruct (Broker_invoke (_getBrokerMethod v) a); reflexivity.
  - intros key Hkey. unfold _getBrokerMethod. rewrite Hkey. reflexivity.
  - intros u a err Hremote Hm.
    rewrite (beforeRender_valid v Hvalid). simpl. rewrite Hremote.
    unfold JS.fail at 2. unfold JS.then_ at 1. unfold JS.fail at 1.
    unfold _logAndAbsorbMarketingClientErrors. rewrite Hm. reflexivity.
Qed.

(** C9.  When the verification info read from the query string is not
    valid, [beforeRender] logs a DAMAGED_VERIFICATION_LINK error and
    returns true at once: that [logError] is the only call made, so the
    remote is not called, the account is not populated from the resume
    token and the broker is not notified; the context rendered next has
    [isLinkDamaged] true. *)
Theorem damaged_link_aborts_beforeRender (v : View) :
  isValid v = false ->
  beforeRender v =
  (record (LogError (AuthErrors_toError "DAMAGED_VERIFICATION_LINK")) v,
   JS.resolved ReturnedTrue) /\
  let v' := (beforeRender v).1 in
  calls v' = calls v ++ [LogError (AuthErrors_toError "DAMAGED_VERIFICATION_LINK")] /\
  _account v' = _account v /\
  user v' = user v /\
  isLinkDamaged (context v') = true.
Proof.
  intros Hinvalid.
  assert (beforeRender v =
          (record (LogError (AuthErrors_toError "DAMAGED_VERIFICATION_LINK")) v,
           JS.resolved ReturnedTrue)) as Heq.
  { unfold beforeRender. rewrite Hinvalid. reflexivity. }
  rewrite Heq. cbv zeta. repeat split.
  unfold context. cbn. rewrite isValid_record, Hinvalid. reflexivity.
Qed.

End Flow.

(** * Properties of the sender *)

Section SenderProperties.
Import FxDesktopV1Sender.
Context {Command Data MessageId : Type}.

(** C8.  For every command, data, message id and window, [send] on a
    sender initialised with that window resolves after dispatching on
    the window one more event: a CustomEvent of type
    'FirefoxAccountsCommand' whose detail holds [bubbles: true], the
    command and the data. *)
Theorem send_dispatches_FirefoxAccountsCommand
        (command : Command) (data : Data) (messageId : MessageId)
        (win : Window Command Data) :
  let this :=
    initialize (Some {| window := Some win |}) (FxDesktopV1Sender Command Data) in
  let event :=
    {| type := "FirefoxAccountsCommand";
       detail := {| bubbles := true; command := command; data := data |} |} in
  _window this = Some win /\
  send command data messageId this =
  ({| _window := Some {| dispatched := dispatched win ++ [event] |} |},
   JS.resolved tt).
Proof. split; reflexivity. Qed.

(** C10.  [send] does not depend on its message id: with the command,
    the data and the sender fixed, two calls with any two message ids
    dispatch the same event and settle alike. *)
Theorem send_ignores_messageId
        (command : Command) (data : Data) (messageId1 messageId2 : MessageId)
        (this : t Command Data) :
  send command data messageId1 this = send command data messageId2 this.
Proof. reflexivity. Qed.

End SenderProperties.

(** * The view on scripted collaborators *)

Section ScriptedRuns.
#[local] Existing Instance Scripted.collaborators.

(** The scripted errors carry one class name each. *)
Lemma scripted_taxonomy : taxonomy_distinguishes_unknown_account.
Proof.
  intros [name|name|message] Hua; cbn in Hua; try discriminate.
  apply String.eqb_eq in Hua. subst name. split; reflexivity.
Qed.

(** The remote no longer knows the account: the link shows as expired. *)
Lemma unknown_account_marks_expired_witness :
  let err := Scripted.AuthError "UNKNOWN_ACCOUNT" in
  let v := Scripted.view "gone" "signup" in
  AuthErrors_is err "UNKNOWN_ACCOUNT" = true /\
  isLinkExpired (context (_handleVerificationErrors err v).1) = true /\
  calls (_handleVerificationErrors err v).1
  = [LogError (Scripted.AuthError "UNKNOWN_ACCOUNT_VERIFICATION")].
Proof.
  cbv zeta. split; [reflexivity|].
  destruct (unknown_account_marks_expired (C := Scripted.collaborators)
              (Scripted.AuthError "UNKNOWN_ACCOUNT") (Scripted.view "gone" "signup")
              eq_refl) as (_ & _ & Hexpired & Hcalls & _).
  split; [exact Hexpired | exact Hcalls].
Defined.

(** A sign-in link followed a second time. *)
Lemma reused_signin_code_marks_used_witness :
  let err := Scripted.AuthError "INVALID_VERIFICATION_CODE" in
  let v := Scripted.view "stale" "login" in
  AuthErrors_is err "INVALID_VERIFICATION_CODE" = true /\
  isSignIn v = true /\
  isLinkUsed (context (_handleVerificationErrors err v).1) = true /\
  calls (_handleVerificationErrors err v).1
  = [LogError (Scripted.AuthError "REUSED_SIGNIN_VERIFICATION_CODE")].
Proof.
  cbv zeta. split; [reflexivity|]. split; [reflexivity|].
  destruct (reused_signin_code_marks_used (C := Scripted.collaborators)
              (Scripted.AuthError "INVALID_VERIFICATION_CODE")
              (Scripted.view "stale" "login")
              scripted_taxonomy (or_introl eq_refl) eq_refl)
    as (_ & _ & Hused & Hcalls & _).
  split; [exact Hused | exact Hcalls].
Defined.

(** A sign-up link the remote finds a bad parameter in. *)
Lemma invalid_link_marks_damaged_witness :
  let err := Scripted.AuthError "INVALID_PARAMETER" in
  let v := Scripted.view "garbled" "signup" in
  AuthErrors_is err "INVALID_PARAMETER" = true /\
  isSignIn v = false /\
  isValid v = true /\
  isLinkDamaged (context (_handleVerificationErrors err v).1) = true /\
  calls (_handleVerificationErrors err v).1
  = [LogError (Scripted.AuthError "DAMAGED_VERIFICATION_LINK")].
Proof.
  cbv zeta. split; [reflexivity|]. split; [reflexivity|]. split; [reflexivity|].
  destruct (invalid_link_marks_damaged (C := Scripted.collaborators)
              (Scripted.AuthError "INVALID_PARAMETER")
              (Scripted.view "garbled" "signup")
              scripted_taxonomy (or_intror eq_refl) eq_refl)
    as (_ & _ & _ & Hdamaged & Hcalls & _).
  split; [exact Hdamaged | exact Hcalls].
Defined.

(** The remote is down: the error is shown as it came. *)
Lemma other_errors_shown_as_is_witness :
  let err := Scripted.ServiceError "service unavailable" in
  let v := Scripted.view "down" "signup" in
  AuthErrors_is err "UNKNOWN_ACCOUNT" = false /\
  AuthErrors_is err "INVALID_VERIFICATION_CODE" = false /\
  AuthErrors_is err "INVALID_PARAMETER" = false /\
  error (context (_handleVerificationErrors err v).1) = Some err /\
  calls (_handleVerificationErrors err v).1 = [LogError err].
Proof.
  cbv zeta. split; [reflexivity|]. split; [reflexivity|]. split; [reflexivity|].
  destruct (other_errors_shown_as_is (C := Scripted.collaborators)
              (Scripted.ServiceError "service unavailable")
              (Scripted.view "down" "signup")
              eq_refl eq_refl eq_refl)
    as (_ & _ & Hshown & _ & _ & _ & _ & Hcalls).
  split; [exact Hshown | exact Hcalls].
Defined.

(** The marketing-email client fails while the account is verified: the
    sign-up completes all the same. *)
Lemma marketing_errors_absorbed_witness :
  let err := Scripted.MarketingEmailError "NETWORK_FAILURE" in
  let v := Scripted.view "basket" "signup" in
  MarketingEmailErrors_created err = true /\
  isValid v = true /\
  remoteAnswer v = (user v, _account v, JS.rejected err) /\
  (beforeRender v).2 = JS.resolved (ReturnedByBroker "afterCompleteSignUp") /\
  model_error (model (beforeRender v).1) = None.
Proof.
  cbv zeta. split; [reflexivity|]. split; [reflexivity|]. split; [reflexivity|].
  destruct (marketing_errors_absorbed (C := Scripted.collaborators) (Scripted.MarketingEmailError "NETWORK_FAILURE"))
    as (_ & _ & Hflow).
  destruct (Hflow eq_refl (Scripted.view "basket" "signup")
              (user (Scripted.view "basket" "signup"))
              (user (Scripted.view "basket" "signup"))
              (_account (Scripted.view "basket" "signup"))
              "afterCompleteSignUp"
              eq_refl eq_refl eq_refl eq_refl) as (Hrun & Hmodel & _).
  split; [rewrite Hrun; reflexivity | rewrite Hmodel; reflexivity].
Defined.

(** A sign-up link that verifies. *)
Lemma completion_notifies_broker_witness :
  let v := Scripted.view "c0de" "signup" in
  isValid v = true /\
  (beforeRender v).2 = JS.resolved (ReturnedByBroker "afterCompleteSignUp") /\
  _getBrokerMethod v = Some "afterCompleteSignUp".
Proof.
  cbv zeta. split; [reflexivity|].
  destruct (completion_notifies_broker (C := Scripted.collaborators) (Scripted.view "c0de" "signup") eq_refl)
    as (Hrun & Hmethod & Hsignup & _).
  split.
  - rewrite (Hrun (user (Scripted.view "c0de" "signup"))
                  (<["a@a.com" :=
                       <["verified" := "true"]>
                         (_account (Scripted.view "c0de" "signup"))]>
                     (user (Scripted.view "c0de" "signup")))
                  (<["verified" := "true"]> (_account (Scripted.view "c0de" "signup")))
                  eq_refl eq_refl).
    reflexivity.
  - rewrite (Hmethod "SIGN_UP" eq_refl). exact Hsignup.
Defined.

(** A link that lost its code. *)
Lemma damaged_link_aborts_beforeRender_witness :
  let v := Scripted.damaged_view in
  isValid v = false /\
  beforeRender v =
  (record (LogError (Scripted.AuthError "DAMAGED_VERIFICATION_LINK")) v,
   JS.resolved ReturnedTrue).
Proof.
  cbv zeta. split; [reflexivity|].
  exact (proj1 (damaged_link_aborts_beforeRender (C := Scripted.collaborators) Scripted.damaged_view eq_refl)).
Defined.

(** C7 as the spec words it fails on the code.  The remote rejects with
    an error of the marketing-email client; the view does not go to the
    error handling: it logs the error, completes and notifies the
    broker. *)
Lemma marketing_failure_still_completes :
  let err := Scripted.MarketingEmailError "NETWORK_FAILURE" in
  let v := Scripted.view "basket" "signup" in
  isValid v = true /\
  remoteAnswer v = (user v, _account v, JS.rejected err) /\
  calls (beforeRender v).1 =
    callsUpToRemote v ++ [LogError err] ++ callsOfCompletion v (_account v) /\
  (beforeRender v).2 = JS.resolved (ReturnedByBroker "afterCompleteSignUp") /\
  (errorPath err (reached v (user v) (_account v) (callsUpToRemote v))).2
  = JS.resolved ReturnedUndefined /\
  ~ spec_failure_always_handled.
Proof.
  cbv zeta. repeat split.
  intros Hspec.
  specialize (Hspec (Scripted.view "basket" "signup")
                    (user (Scripted.view "basket" "signup"))
                    (_account (Scripted.view "basket" "signup"))
                    (Scripted.MarketingEmailError "NETWORK_FAILURE")
                    eq_refl eq_refl).
  apply (f_equal snd) in Hspec. vm_compute in Hspec. discriminate Hspec.
Qed.

End ScriptedRuns.

(** * Every run of [beforeRender] *)

Section EveryRun.
Context `{C : Collaborators}.

Lemma reached_self (v : View) : reached v (user v) (_account v) (calls v) = v.
Proof. destruct v. reflexivity. Qed.

(** [_handleVerificationErrors] on any error: one branch of four. *)
Lemma handle_cases (err : Error) (v : View) (u : User) (a : Account)
      (cs : list Call) :
  exists (vi : VerificationInfo.t) (m : Model) (logged : Error),
    Handled err (_verificationInfo v) (model v) vi m logged /\
    _handleVerificationErrors err (reached v u a cs)
    = (settledAs v vi m u a (cs ++ [LogError logged]), JS.resolved tt).
Proof.
  unfold _handleVerificationErrors.
  destruct (AuthErrors_is err "UNKNOWN_ACCOUNT").
  { eexists _, _, _. split; [apply HandledExpired | reflexivity]. }
  destruct (AuthErrors_is err "INVALID_VERIFICATION_CODE"
            || AuthErrors_is err "INVALID_PARAMETER").
  { destruct (isSignIn (reached v u a cs)).
    - eexists _, _, _. split; [apply HandledUsed | reflexivity].
    - eexists _, _, _. split; [apply HandledDamaged | reflexivity]. }
  eexists _, _, _. split; [apply HandledShown | reflexivity].
Qed.

Lemma errorPath_cases (err : Error) (v : View) (u : User) (a : Account)
      (cs : list Call) :
  exists (vi : VerificationInfo.t) (m : Model) (logged : Error),
    Handled err (_verificationInfo v) (model v) vi m logged /\
    errorPath err (reached v u a cs)
    = (settledAs v vi m u a (cs ++ [LogError logged]),
       JS.resolved ReturnedUndefined).
Proof.
  destruct (handle_cases err v u a cs) as (vi & m & logged & Hh & Heq).
  exists vi, m, logged. split; [exact Hh|].
  unfold errorPath, JS.then_. rewrite Heq. reflexivity.
Qed.

(** [_notifyBrokerAndComplete], whichever way [user.setAccount] settles. *)
Lemma notifyBrokerAndComplete_cases (v : View) (u : User) (a : Account)
      (cs : list Call) :
  _notifyBrokerAndComplete (reached v u a cs) =
  match User_setAccount u a with
  | (u', JS.resolved _) =>
      (reached v u' a (cs ++ callsOfCompletion v a),
       Broker_invoke (_getBrokerMethod v) a)
  | (u', JS.rejected e) =>
      (reached v u' a (cs ++ callsUpToSetAccount a), JS.rejected e)
  end.
Proof.
  unfold _notifyBrokerAndComplete, JS.then_, logViewEvent,
    notifier_trigger, JS.modify, user_setAccount, invokeBrokerMethod.
  cbn. destruct (User_setAccount u a) as [u' [[]|e]];
    unfold reached, callsOfCompletion, callsUpToSetAccount, set_user, record; cbn;
    rewrite <- !app_assoc; reflexivity.
Qed.

Lemma completion_cases (v : View) (u : User) (a : Account) (cs : list Call) :
  completion (reached v u a cs) =
  match User_setAccount u a with
  | (u', JS.resolved _) =>
      match Broker_invoke (_getBrokerMethod v) a with
      | JS.resolved r =>
          (reached v u' a (cs ++ callsOfCompletion v a),
           JS.resolved (ReturnedByBroker r))
      | JS.rejected e => errorPath e (reached v u' a (cs ++ callsOfCompletion v a))
      end
  | (u', JS.rejected e) =>
      errorPath e (reached v u' a (cs ++ callsUpToSetAccount a))
  end.
Proof.
  unfold completion, JS.fail, JS.then_ at 1.
  rewrite notifyBrokerAndComplete_cases.
  destruct (User_setAccount u a) as [u' [[]|e]]; [|reflexivity].
  destruct (Broker_invoke (_getBrokerMethod v) a); reflexivity.
Qed.

(** [beforeRender] on a valid link, by the remote's answer. *)
Lemma beforeRender_valid_cases (v : View) :
  isValid v = true ->
  beforeRender v =
  match remoteAnswer v with
  | (u, a, JS.resolved _) => completion (reached v u a (callsUpToRemote v))
  | (u, a, JS.rejected err) =>
      if MarketingEmailErrors_created err then
        completion (reached v u a (callsUpToRemote v ++ [LogError err]))
      else
        errorPath err (reached v u a (callsUpToRemote v))
  end.
Proof.
  intros Hvalid. rewrite (beforeRender_valid v Hvalid). simpl.
  destruct (remoteAnswer v) as [[u a] [[]|err]].
  - reflexivity.
  - unfold JS.fail at 2. unfold JS.then_ at 1. unfold JS.fail at 1.
    unfold _logAndAbsorbMarketingClientErrors.
    destruct (MarketingEmailErrors_created err); reflexivity.
Qed.

(** Every run on a valid link ends resolved, either with the broker's
    result and the view as the calls left it, or through the error
    handling; the calls after the remote one never reach the remote
    again. *)
Lemma completion_run (v : View) (u : User) (a : Account) (cs : list Call) :
  exists (u' : User) (rest : list Call),
    Forall (fun c => reachesRemote c = false) rest /\
    ((exists r : BrokerResult,
         completion (reached v u a cs)
         = (reached v u' a (cs ++ rest), JS.resolved (ReturnedByBroker r))) \/
     (exists (err : Error) (vi : VerificationInfo.t) (m : Model) (logged : Error),
         Handled err (_verificationInfo v) (model v) vi m logged /\
         completion (reached v u a cs)
         = (settledAs v vi m u' a (cs ++ rest ++ [LogError logged]),
            JS.resolved ReturnedUndefined))).
Proof.
  rewrite completion_cases.
  destruct (User_setAccount u a) as [u' [[]|e]].
  - destruct (Broker_invoke (_getBrokerMethod v) a) as [r|e].
    + exists u', (callsOfCompletion v a). split.
      { repeat constructor. }
      left. exists r. reflexivity.
    + exists u', (callsOfCompletion v a). split.
      { repeat constructor. }
      right.
      destruct (errorPath_cases e v u' a (cs ++ callsOfCompletion v a))
        as (vi & m & logged & Hh & Heq).
      exists e, vi, m, logged. split; [exact Hh|].
      rewrite Heq, <- app_assoc. reflexivity.
  - exists u', (callsUpToSetAccount a). split.
    { repeat constructor. }
    right.
    destruct (errorPath_cases e v u' a (cs ++ callsUpToSetAccount a))
      as (vi & m & logged & Hh & Heq).
    exists e, vi, m, logged. split; [exact Hh|].
    rewrite Heq, <- app_assoc. reflexivity.
Qed.

Lemma beforeRender_valid_run (v : View) :
  isValid v = true ->
  exists (u : User) (a : Account) (rest : list Call),
    Forall (fun c => reachesRemote c = false) rest /\
    ((exists r : BrokerResult,
         beforeRender v
         = (reached v u a (callsUpToRemote v ++ rest),
            JS.resolved (ReturnedByBroker r))) \/
     (exists (err : Error) (vi : VerificationInfo.t) (m : Model) (logged : Error),
         Handled err (_verificationInfo v) (model v) vi m logged /\
         beforeRender v
         = (settledAs v vi m u a (callsUpToRemote v ++ rest ++ [LogError logged]),
            JS.resolved ReturnedUndefined))).
Proof.
  intros Hvalid. rewrite (beforeRender_valid_cases v Hvalid).
  destruct (remoteAnswer v) as [[u a] [[]|err]].
  - destruct (completion_run v u a (callsUpToRemote v))
      as (u' & rest & Hrest & Hrun).
    exists u', a, rest. split; [exact Hrest | exact Hrun].
  - destruct (MarketingEmailErrors_created err).
    + destruct (completion_run v u a (callsUpToRemote v ++ [LogError err]))
        as (u' & rest & Hrest & Hrun).
      exists u', a, (LogError err :: rest). split.
      { constructor; [reflexivity | exact Hrest]. }
      destruct Hrun as [[r Hrun] | (e & vi & m & logged & Hh & Hrun)].
      * left. exists r. rewrite Hrun, <- app_assoc. reflexivity.
      * right. exists e, vi, m, logged. split; [exact Hh|].
        rewrite Hrun, <- app_assoc. reflexivity.
    + destruct (errorPath_cases err v u a (callsUpToRemote v))
        as (vi & m & logged & Hh & Heq).
      exists u, a, []. split; [constructor|].
      right. exists err, vi, m, logged. split; [exact Hh|].
      rewrite Heq. reflexivity.
Qed.

(** The calls of a run on a valid link begin with the two that reach
    the remote. *)
Lemma calls_begin_with_remote (v : View) :
  isValid v = true ->
  exists rest : list Call,
    calls (beforeRender v).1
    = calls v
      ++ [PopulateFromStringifiedResumeToken (getSearchParam v "resume");
          CompleteAccountSignUp (resumedAccount v) (sentCode v) (sentOptions v)]
      ++ rest.
Proof.
  intros Hvalid.
  destruct (beforeRender_valid_run v Hvalid)
    as (u & a & rest & _ & [[r Hrun] | (e & vi & m & logged & _ & Hrun)]).
  - exists rest. rewrite Hrun. unfold callsUpToRemote. cbn.
    rewrite <- app_assoc. reflexivity.
  - exists (rest ++ [LogError logged]). rewrite Hrun. unfold callsUpToRemote. cbn.
    rewrite <- app_assoc. reflexivity.
Qed.

End EveryRun.

(** * What every run of the view keeps *)

Section Invariants.
Context `{C : Collaborators}.


(** X2.  On a valid link [beforeRender] first populates the account from
    the resume parameter, then calls the remote once, with that account,
    the link's code and the options; whatever happens next, no later
    call populates the account or reaches the remote again. *)
Theorem beforeRender_calls_remote_once (v : View) :
  isValid v = true ->
  exists rest : list Call,
    calls (beforeRender v).1
    = calls v
      ++ [PopulateFromStringifiedResumeToken (getSearchParam v "resume");
          CompleteAccountSignUp
            (Account_populateFromStringifiedResumeToken
               (getSearchParam v "resume") (_account v))
            (VerificationInfo.get (_verificationInfo v) "code")
            (sentOptions v)]
      ++ rest /\
    Forall (fun c => reachesRemote c = false) rest.
Proof.
  intros Hvalid.
  destruct (beforeRender_valid_run v Hvalid)
    as (u & a & rest & Hrest & [[r Hrun] | (e & vi & m & logged & _ & Hrun)]).
  - exists rest. rewrite Hrun. split; [|exact Hrest].
    unfold callsUpToRemote. cbn. rewrite <- app_assoc. reflexivity.
  - exists (rest ++ [LogError logged]). rewrite Hrun. split.
    + unfold callsUpToRemote. cbn. rewrite <- app_assoc. reflexivity.
    + apply Forall_app. split; [exact Hrest | repeat constructor].
Qed.

(** X3.  When the remote resolves but [user.setAccount] rejects, the
    success has already been logged and triggered; the broker is not
    invoked, the rejection goes to [_handleVerificationErrors] and the
    promise resolves with undefined after one logged error. *)
Theorem setAccount_failure_is_handled (v : View) (u u' : User) (a : Account)
        (e : Error) :
  isValid v = true ->
  remoteAnswer v = (u, a, JS.resolved tt) ->
  User_setAccount u a = (u', JS.rejected e) ->
  beforeRender v
  = errorPath e (reached v u' a (callsUpToRemote v ++ callsUpToSetAccount a)) /\
  (beforeRender v).2 = JS.resolved ReturnedUndefined /\
  exists logged : Error,
    calls (beforeRender v).1
    = callsUpToRemote v
      ++ [LogViewEvent "verification.success";
          NotifierTrigger "verification.success";
          SetAccount a;
          LogError logged].
Proof.
  intros Hvalid Hremote Hset.
  assert (beforeRender v
          = errorPath e (reached v u' a (callsUpToRemote v ++ callsUpToSetAccount a)))
    as Heq.
  { rewrite (beforeRender_valid_cases v Hvalid), Hremote, completion_cases, Hset.
    reflexivity. }
  split; [exact Heq|]. rewrite Heq.
  destruct (errorPath_cases e v u' a (callsUpToRemote v ++ callsUpToSetAccount a))
    as (vi & m & logged & _ & Hrun).
  rewrite Hrun. split; [reflexivity|].
  exists logged. cbn. rewrite <- app_assoc. reflexivity.
Qed.

(** X4.  [_handleVerificationErrors] never throws and logs exactly one
    error, whatever it is handed.  It leaves the account, the registry,
    the cached email, the relier, the query parameters, the model's type
    and the link's attributes alone, and it changes the verification
    info or the model, never both. *)
Theorem handleVerificationErrors_frame (err : Error) (v : View) :
  let w := (_handleVerificationErrors err v).1 in
  (_handleVerificationErrors err v).2 = JS.resolved tt /\
  (exists logged : Error, calls w = calls v ++ [LogError logged]) /\
  _account w = _account v /\
  user w = user v /\
  _email w = _email v /\
  relier w = relier v /\
  searchParams w = searchParams v /\
  model_type (model w) = model_type (model v) /\
  VerificationInfo.attributes (_verificationInfo w)
  = VerificationInfo.attributes (_verificationInfo v) /\
  (_verificationInfo w = _verificationInfo v \/ model w = model v).
Proof.
  cbv zeta.
  destruct (handle_cases err v (user v) (_account v) (calls v))
    as (vi & m & logged & Hh & Hrun).
  rewrite reached_self in Hrun. rewrite Hrun. cbn.
  split; [reflexivity|]. split; [exists logged; reflexivity|].
  repeat (split; [reflexivity|]).
  destruct Hh; cbn; auto.
Qed.

(** X5.  Over a whole run of [beforeRender] the cached email, the
    relier, the query parameters, the model's type and the link's
    attributes stay as they were.  The verification info gains at most
    one mark, and when it gains one the model is left alone: the error
    box and the link messages are never both switched on by one run. *)
Theorem beforeRender_frame (v : View) :
  let w := (beforeRender v).1 in
  let vi := _verificationInfo v in
  _email w = _email v /\
  relier w = relier v /\
  searchParams w = searchParams v /\
  model_type (model w) = model_type (model v) /\
  VerificationInfo.attributes (_verificationInfo w) = VerificationInfo.attributes vi /\
  (_verificationInfo w = vi \/
   model w = model v /\
   (_verificationInfo w = VerificationInfo.markExpired vi \/
    _verificationInfo w = VerificationInfo.markUsed vi \/
    _verificationInfo w = VerificationInfo.markDamaged vi)).
Proof.
  cbv zeta. destruct (isValid v) eqn:Hvalid.
  - destruct (beforeRender_valid_run v Hvalid)
      as (u & a & rest & _ & [[r Hrun] | (e & vi & m & logged & Hh & Hrun)]).
    + rewrite Hrun. cbn. repeat (split; [reflexivity|]). left. reflexivity.
    + rewrite Hrun. cbn. repeat (split; [reflexivity|]).
      destruct Hh; cbn; repeat (split; [reflexivity|]); auto 8.
  - unfold beforeRender. rewrite Hvalid. cbn.
    repeat (split; [reflexivity|]). left. reflexivity.
Qed.

(** X6.  The options the remote is called with: the reminder and the
    type are the link's own, missing when the link has none; the
    secondary-email flag, the server verification status and the
    relier's service are [null] when missing or empty and passed on
    unchanged otherwise, so none of the three is ever undefined or the
    empty string. *)
Theorem remote_options_normalised (v : View) :
  isValid v = true ->
  exists (a : Account) (code : JS.value) (o : Options) (rest : list Call),
    calls (beforeRender v).1
    = calls v ++ [PopulateFromStringifiedResumeToken (getSearchParam v "resume");
                  CompleteAccountSignUp a code o] ++ rest /\
    reminder o = JS.get (VerificationInfo.attributes (_verificationInfo v)) "reminder" /\
    type o = JS.get (VerificationInfo.attributes (_verificationInfo v)) "type" /\
    secondaryEmailVerified o
    = presentOrNull (searchParams v !! "secondary_email_verified") /\
    serverVerificationStatus o
    = presentOrNull (searchParams v !! "server_verification") /\
    service o = presentOrNull (relier v !! "service") /\
    (forall x : JS.value,
       In x [secondaryEmailVerified o; serverVerificationStatus o; service o] ->
       x <> JS.undefined /\ x <> JS.str EmptyString).
Proof.
  intros Hvalid.
  destruct (calls_begin_with_remote v Hvalid) as (rest & Hcalls).
  assert (forall x : option string,
             JS.or_null (match x with Some s => JS.str s | None => JS.undefined end)
             = presentOrNull x) as Hnorm.
  { intros [s|]; [|reflexivity]. unfold JS.or_null, presentOrNull. cbn.
    destruct (String.eqb s EmptyString); reflexivity. }
  assert (forall x : option string,
             presentOrNull x <> JS.undefined
             /\ presentOrNull x <> JS.str EmptyString) as Hpresent.
  { intros [s|]; [|split; discriminate]. unfold presentOrNull.
    destruct (String.eqb s EmptyString) eqn:Hs; [split; discriminate|].
    split; [discriminate|]. intros Heq. injection Heq as ->. discriminate Hs. }
  eexists _, _, (sentOptions v), rest. split; [exact Hcalls|].
  unfold sentOptions, getSearchParam, JS.get. cbn.
  rewrite !Hnorm. repeat (split; [reflexivity|]).
  intros x [<- | [<- | [<- | []]]]; apply Hpresent.
Qed.

End Invariants.

(** * [initialize] and [resend] *)

Section ResendProperties.
Context `{R : ResendCollaborators}.

(** [resend], by how [retrySignUp] settles. *)
Lemma resend_cases (v : View) (cs : list ResendCall) :
  let account := User_getAccountByEmail (user v) (_email v) in
  let resume := getStringifiedResumeToken v account in
  resend v cs =
  match Account_retrySignUp account (relier v) resume with
  | JS.resolved r =>
      (cs ++ [RetrySignUp account (relier v) resume], JS.resolved (RetryResolved r))
  | JS.rejected err =>
      if AuthErrors_is err "INVALID_TOKEN" then
        (cs ++ [RetrySignUp account (relier v) resume; Navigate "signup" err],
         JS.resolved NavigateReturned)
      else
        (cs ++ [RetrySignUp account (relier v) resume], JS.rejected err)
  end.
Proof.
  cbv zeta.
  unfold resend, JS.fail, JS.then_, account_retrySignUp, navigate, JS.modify.
  destruct (Account_retrySignUp _ _ _) as [r|err]; [reflexivity|].
  destruct (AuthErrors_is err "INVALID_TOKEN"); [|reflexivity].
  cbn. rewrite <- app_assoc. reflexivity.
Qed.

(** X7.  [resend] retries the sign-up once, with the account the
    registry holds for the cached email.  A rejection that is the
    INVALID_TOKEN auth error is not passed on: the view navigates to
    'signup' with that error and the promise resolves.  Any other
    rejection is rethrown as it came, with no navigation, so [resend]
    never rejects with INVALID_TOKEN. *)
Theorem resend_routes_invalid_token (v : View) (cs : list ResendCall) :
  let account := User_getAccountByEmail (user v) (_email v) in
  let retry :=
    RetrySignUp account (relier v) (getStringifiedResumeToken v account) in
  let answer :=
    Account_retrySignUp account (relier v) (getStringifiedResumeToken v account) in
  (forall r : RetryResult,
     answer = JS.resolved r ->
     resend v cs = (cs ++ [retry], JS.resolved (RetryResolved r))) /\
  (forall err : Error,
     answer = JS.rejected err ->
     AuthErrors_is err "INVALID_TOKEN" = true ->
     resend v cs = (cs ++ [retry; Navigate "signup" err], JS.resolved NavigateReturned)) /\
  (forall err : Error,
     answer = JS.rejected err ->
     AuthErrors_is err "INVALID_TOKEN" = false ->
     resend v cs = (cs ++ [retry], JS.rejected err)) /\
  (forall (cs' : list ResendCall) (err : Error),
     resend v cs = (cs', JS.rejected err) ->
     AuthErrors_is err "INVALID_TOKEN" = false /\ cs' = cs ++ [retry]).
Proof.
  cbv zeta. split; [|split; [|split]].
  - intros r Hanswer. rewrite resend_cases, Hanswer. reflexivity.
  - intros err Hanswer Htoken. rewrite resend_cases, Hanswer, Htoken. reflexivity.
  - intros err Hanswer Htoken. rewrite resend_cases, Hanswer, Htoken. reflexivity.
  - intros cs' err Hrun. rewrite resend_cases in Hrun.
    destruct (Account_retrySignUp _ _ _) as [r|err0]; [discriminate|].
    destruct (AuthErrors_is err0 "INVALID_TOKEN") eqn:Htoken; [discriminate|].
    injection Hrun as <- <-. split; [exact Htoken | reflexivity].
Qed.

(** X8.  Whenever the template is told that a resend is possible, the
    account that [resend] retries with is the one whose session token
    [_canResend] found: [resend] starts by calling [retrySignUp] on an
    account that holds a session token, in a sign-up flow. *)
Theorem canResend_account_is_retried (v : View) :
  canResend (context v) = true ->
  exists account : Account,
    JS.truthy (Account_get account "sessionToken") = true /\
    isSignUp v = true /\
    forall cs : list ResendCall,
      exists (rest : list ResendCall) (r : JS.settled Error Resent),
        resend v cs
        = (cs ++ RetrySignUp account (relier v) (getStringifiedResumeToken v account)
              :: rest, r).
Proof.
  intros Hcan.
  change (canResend (context v)) with (_hasResendSessionToken v && isSignUp v) in Hcan.
  apply andb_true_iff in Hcan as [Htoken Hsignup].
  exists (User_getAccountByEmail (user v) (_email v)).
  split; [exact Htoken|]. split; [exact Hsignup|].
  intros cs. rewrite resend_cases.
  destruct (Account_retrySignUp _ _ _) as [r|err].
  - eexists [], _. reflexivity.
  - destruct (AuthErrors_is err "INVALID_TOKEN").
    + eexists [_], _. reflexivity.
    + eexists [], _. reflexivity.
Qed.

(** X9.  A view initialised on query parameters that pass the schema
    keeps the account it was given or, failing that, the registry's
    account for the link's uid, with the link's uid set on it when it is
    the default account and untouched otherwise; it caches that
    account's email, and [beforeRender] hands that very account, once
    populated from the resume parameter, to the remote with the link's
    code as its first two calls. *)
Theorem initialize_chooses_account
        (account : option Account) (params : gmap string string)
        (u : User) (m : Model) (rl : gmap string string) :
  VerificationInfo_validate params = true ->
  let uid := JS.get params "uid" in
  let found := default (User_getAccountByUid u uid) account in
  let chosen :=
    if Account_isDefault found then Account_set_uid uid found else found in
  let v := initialize account params u m rl in
  getAccount v = chosen /\
  _email v = Account_get chosen "email" /\
  isValid v = true /\
  exists rest : list Call,
    calls (beforeRender v).1
    = [PopulateFromStringifiedResumeToken (JS.get params "resume");
       CompleteAccountSignUp
         (Account_populateFromStringifiedResumeToken (JS.get params "resume") chosen)
         (JS.get params "code") (sentOptions v)]
      ++ rest.
Proof.
  intros Hschema. cbv zeta.
  assert (isValid (initialize account params u m rl) = true) as Hvalid.
  { unfold isValid, initialize, VerificationInfo.isValid. cbn. exact Hschema. }
  split; [reflexivity|]. split; [reflexivity|]. split; [exact Hvalid|].
  destruct (calls_begin_with_remote _ Hvalid) as (rest & Hcalls).
  exists rest. rewrite Hcalls. reflexivity.
Qed.

End ResendProperties.

(** * More of the sender *)

Section SenderEdges.
Import FxDesktopV1Sender.
Context {Command Data MessageId : Type}.

(** X10.  A sender that has no window, because it was never initialised
    or was initialised without options or without a window, rejects
    every [send] with a TypeError and stays as it was: nothing is
    dispatched anywhere. *)
Theorem send_without_window_rejects
        (command : Command) (data : Data) (messageId : MessageId)
        (this : t Command Data) :
  _window this = None ->
  send command data messageId this = (this, JS.rejected TypeError) /\
  _window (initialize None this) = None /\
  _window (initialize (Some {| window := None |}) this) = None.
Proof.
  intros Hnone. split; [|split; reflexivity].
  unfold send, JS.then_, JS.resolve, dispatchCommand. rewrite Hnone. reflexivity.
Qed.

(** X11.  Sends made one after the other on a sender with a window all
    resolve, and the window receives one event per message, in the order
    the messages were sent, after the events it had already received;
    none is dropped, repeated or reordered. *)
Theorem sendAll_dispatches_in_order
        (messages : list (Command * Data * MessageId))
        (this : t Command Data) (win : Window Command Data) :
  _window this = Some win ->
  sendAll messages this
  = ({| _window := Some {| dispatched := dispatched win ++ map eventOf messages |} |},
     JS.resolved tt).
Proof.
  revert this win. induction messages as [|[[command data] messageId] rest IH];
    intros this win Hwin.
  - cbn. rewrite app_nil_r. destruct this as [w]. cbn in Hwin. subst w.
    destruct win. reflexivity.
  - cbn [sendAll]. unfold JS.then_ at 1.
    assert (send command data messageId this
            = ({| _window := Some (dispatchEvent (createEvent win command data) win) |},
               JS.resolved tt)) as Hsend.
    { unfold send, JS.then_, JS.resolve, dispatchCommand. rewrite Hwin. reflexivity. }
    rewrite Hsend.
    rewrite (IH {| _window := Some (dispatchEvent (createEvent win command data) win) |}
                (dispatchEvent (createEvent win command data) win) eq_refl).
    cbn. rewrite <- app_assoc. reflexivity.
Qed.

End SenderEdges.

(** * More scripted runs *)

Section MoreScriptedRuns.
#[local] Existing Instance Scripted.collaborators.
#[local] Existing Instance ScriptedResend.collaborators.

(** A sign-up link that verifies: two calls reach the remote, four
    follow. *)
Lemma beforeRender_calls_remote_once_witness :
  let v := Scripted.view "c0de" "signup" in
  @isValid Scripted.collaborators v = true /\
  exists rest : list (@Call Scripted.collaborators),
    length rest = 4 /\
    Forall (fun c => reachesRemote c = false) rest /\
    skipn 2 (calls (beforeRender v).1) = rest.
Proof.
  cbv zeta. split; [reflexivity|].
  destruct (beforeRender_calls_remote_once (C := Scripted.collaborators)
              (Scripted.view "c0de" "signup") eq_refl) as (rest & Hcalls & Hrest).
  exists rest. rewrite Hcalls. cbn [calls Scripted.view app skipn].
  split; [|split; [exact Hrest | reflexivity]].
  apply (f_equal (@length _)) in Hcalls. vm_compute in Hcalls.
  injection Hcalls as Hlen. symmetry. exact Hlen.
Defined.

(** The link verifies but the registry cannot be written. *)
Lemma setAccount_failure_is_handled_witness :
  let v := ScriptedQuota.view in
  let a : gmap string string := <["verified" := "true"]> (_account v) in
  @isValid ScriptedQuota.collaborators v = true /\
  remoteAnswer v = (user v, a, JS.resolved tt) /\
  (beforeRender v).2 = JS.resolved ReturnedUndefined /\
  model_error (model (beforeRender v).1) = Some ScriptedQuota.quota.
Proof.
  cbv zeta. split; [reflexivity|]. split; [reflexivity|].
  destruct (setAccount_failure_is_handled (C := ScriptedQuota.collaborators)
              ScriptedQuota.view (user ScriptedQuota.view) (user ScriptedQuota.view)
              (<["verified" := "true"]> (_account ScriptedQuota.view))
              ScriptedQuota.quota eq_refl eq_refl eq_refl) as (Heq & Hres & _).
  split; [exact Hres|]. rewrite Heq. reflexivity.
Defined.

(** A link without the optional parameters: the three of them are sent
    as null. *)
Lemma remote_options_normalised_witness :
  let v := Scripted.view "c0de" "signup" in
  @isValid Scripted.collaborators v = true /\
  exists (a : gmap string string) (code : JS.value) (o : Options),
    nth_error (calls (beforeRender v).1) 1 = Some (CompleteAccountSignUp a code o) /\
    secondaryEmailVerified o = JS.null /\
    serverVerificationStatus o = JS.null /\
    service o = JS.null.
Proof.
  cbv zeta. split; [reflexivity|].
  destruct (remote_options_normalised (C := Scripted.collaborators)
              (Scripted.view "c0de" "signup") eq_refl)
    as (a & code & o & rest & Hcalls & _ & _ & Hsecondary & Hserver & Hservice & _).
  exists a, code, o. rewrite Hcalls.
  split; [reflexivity|]. split; [exact Hsecondary|]. split; [exact Hserver|].
  exact Hservice.
Defined.

(** The browser that signed up: the retry goes out with an account
    that holds a session token. *)
Lemma canResend_account_is_retried_witness :
  let v := ScriptedResend.view_with_token "t0ken" in
  canResend (@context Scripted.collaborators v) = true /\
  exists account : gmap string string,
    JS.truthy (JS.get account "sessionToken") = true /\
    exists (rest : list (@ResendCall _ ScriptedResend.collaborators))
           (r : JS.settled Scripted.error (@Resent _ ScriptedResend.collaborators)),
      resend v []
      = (RetrySignUp account (relier v) (getStringifiedResumeToken v account) :: rest,
         r).
Proof.
  cbv zeta. split; [reflexivity|].
  destruct (canResend_account_is_retried
              (C := Scripted.collaborators) (R := ScriptedResend.collaborators)
              (ScriptedResend.view_with_token "t0ken") eq_refl)
    as (account & Htoken & _ & Hresend).
  exists account. split; [exact Htoken|]. exact (Hresend []).
Defined.

(** A link opened in a browser that does not know the account. *)
Lemma initialize_chooses_account_witness :
  let v :=
    @initialize Scripted.collaborators ScriptedResend.collaborators
      None ScriptedResend.second_browser_params ∅ ScriptedResend.signup_model ∅ in
  Scripted.validate ScriptedResend.second_browser_params = true /\
  getAccount v = {[ "uid" := "u1" ]} /\
  _email v = JS.undefined /\
  exists (o : Options) (rest : list (@Call Scripted.collaborators)),
    calls (beforeRender v).1
    = [PopulateFromStringifiedResumeToken (JS.str "b@b.com");
       CompleteAccountSignUp {[ "uid" := "u1"; "email" := "b@b.com" ]}
                             (JS.str "c0de") o]
      ++ rest.
Proof.
  cbv zeta. split; [reflexivity|].
  destruct (initialize_chooses_account
              (C := Scripted.collaborators) (R := ScriptedResend.collaborators)
              None ScriptedResend.second_browser_params ∅
              ScriptedResend.signup_model ∅ eq_refl)
    as (Haccount & Hemail & _ & rest & Hcalls).
  split; [rewrite Haccount; reflexivity|].
  split; [rewrite Hemail; reflexivity|].
  eexists _, rest. rewrite Hcalls. reflexivity.
Defined.

(** A sender that was never initialised. *)
Lemma send_without_window_rejects_witness :
  FxDesktopV1Sender._window (FxDesktopV1Sender.FxDesktopV1Sender string string) = None /\
  FxDesktopV1Sender.send "fx_accounts_loaded" "data" 7%nat
    (FxDesktopV1Sender.FxDesktopV1Sender string string)
  = (FxDesktopV1Sender.FxDesktopV1Sender string string,
     JS.rejected FxDesktopV1Sender.TypeError).
Proof.
  split; [reflexivity|].
  exact (proj1 (send_without_window_rejects
                  "fx_accounts_loaded" "data" 7%nat
                  (FxDesktopV1Sender.FxDesktopV1Sender string string) eq_refl)).
Defined.

(** Two commands sent to a window that has seen none. *)
Lemma sendAll_dispatches_in_order_witness :
  let win : FxDesktopV1Sender.Window string string :=
    {| FxDesktopV1Sender.dispatched := [] |} in
  let this := {| FxDesktopV1Sender._window := Some win |} in
  FxDesktopV1Sender._window this = Some win /\
  (FxDesktopV1Sender.command ∘ FxDesktopV1Sender.detail) <$>
    (default [] (FxDesktopV1Sender.dispatched <$>
       FxDesktopV1Sender._window
         (sendAll [("loaded", "a", 1%nat); ("login", "b", 2%nat)] this).1))
  = ["loaded"; "login"].
Proof.
  cbv zeta. split; [reflexivity|].
  rewrite (sendAll_dispatches_in_order
             [("loaded", "a", 1%nat); ("login", "b", 2%nat)]
             {| FxDesktopV1Sender._window :=
                  Some {| FxDesktopV1Sender.dispatched := [] |} |}
             {| FxDesktopV1Sender.dispatched := [] |} eq_refl).
  reflexivity.
Defined.

End MoreScriptedRuns.
